(** * deid: date jittering of DICOM fields (deid/dicom/actions/jitter.py)

    A shallow embedding of [jitter_timestamp_func] and [jitter_timestamp],
    with the messages they send to the logger, and the properties of the
    timestamp obfuscation engine proved about it. *)

From Stdlib Require Import ZArith String Ascii List Bool Lia DecimalString.
From stdpp Require Import gmap strings.

Local Open Scope string_scope.
Local Open Scope list_scope.
Local Open Scope Z_scope.

(** ** Python values *)

(** The objects the function meets: [None], a [str], an [int], or any
    other object, of which only the class name and the [str()] text are
    observed (in log messages and in the final join). *)
Inductive pyobj : Type :=
| PyNone
| PyStr (s : string)
| PyInt (n : Z)
| PyOther (cls text : string).

(** The value of a DICOM element: one object, a Python [list], or a
    pydicom [MultiValue]. *)
Inductive pyvalue : Type :=
| Single (o : pyobj)
| PyList (items : list pyobj)
| MultiValue (items : list pyobj).

Definition str_of_Z (n : Z) : string := NilZero.string_of_int (Z.to_int n).

(** [str(o)], which is also what an f-string field [{o}] renders. *)
Definition py_str (o : pyobj) : string :=
  match o with
  | PyNone => "None"
  | PyStr s => s
  | PyInt n => str_of_Z n
  | PyOther _ text => text
  end.

(** [type(o)] as an f-string renders it. *)
Definition py_type (o : pyobj) : string :=
  "<class '" +:+
  match o with
  | PyNone => "NoneType"
  | PyStr _ => "str"
  | PyInt _ => "int"
  | PyOther cls _ => cls
  end +:+ "'>".

(** Truth value of a [str] or [None] result: [if single_jittered:]. *)
Definition truthy (v : option string) : bool :=
  match v with
  | Some (String _ _) => true
  | _ => false
  end.

(** ** Exceptions *)

Inductive exception_class : Type :=
| ValueError | SyntaxError | TypeError | OverflowError
| MemoryError | RecursionError.

(** An exception: its class, and [str(e)]. Every class above derives
    from [Exception]. *)
Record exn : Type := Exception { exn_class : exception_class; exn_text : string }.

Inductive result (A : Type) : Type :=
| Returns (a : A)
| Raises (e : exn).
Arguments Returns {A} a.
Arguments Raises {A} e.

(** [except (ValueError, SyntaxError)]. *)
Definition is_ValueError_or_SyntaxError (e : exn) : bool :=
  match exn_class e with
  | ValueError | SyntaxError => true
  | _ => false
  end.

(** ** The logger [bot] *)

Inductive level : Type := DEBUG | INFO | WARNING | ERROR.

Definition log_record : Type := level * string.

Definition bot_debug (m : string) : log_record := (DEBUG, m).
Definition bot_info (m : string) : log_record := (INFO, m).
Definition bot_warning (m : string) : log_record := (WARNING, m).
Definition bot_error (m : string) : log_record := (ERROR, m).

(** A computation together with the records it sent to the logger. *)
Definition logged (A : Type) : Type := A * list log_record.

Definition pure {A} (a : A) : logged A := (a, []).

Definition bind {A B} (m : logged A) (k : A -> logged B) : logged B :=
  (fst (k (fst m)), snd m ++ snd (k (fst m))).

Definition emit (r : log_record) : logged unit := (tt, [r]).

Notation "'let*' x ':=' m 'in' k" := (bind m (fun x => k))
  (at level 10, x pattern, m at level 100, k at level 200).

Definition is_level (lv : level) (r : log_record) : bool :=
  match lv, fst r with
  | DEBUG, DEBUG | INFO, INFO | WARNING, WARNING | ERROR, ERROR => true
  | _, _ => false
  end.

(** The records of one severity, in the order they were sent. *)
Definition at_level (lv : level) (l : list log_record) : list log_record :=
  List.filter (is_level lv) l.

(** ** The built-in [int()] on ASCII text *)

(** [int()] is a parameter of [jitter_timestamp] below. What follows is
    the built-in on the text the examples give it: ASCII text, where the
    white space is the characters 9 to 13 and 32, the digits are [0] to
    [9], and the text of the exception shows the string between single
    quotes (as [repr] does when the string has no quote, backslash or
    control character in it). *)

Definition is_space (c : ascii) : bool :=
  let n := N_of_ascii c in
  ((9 <=? n) && (n <=? 13) || (n =? 32))%N.

Definition is_digit (c : ascii) : bool :=
  let n := N_of_ascii c in ((48 <=? n) && (n <=? 57))%N.

Definition digit_value (c : ascii) : Z := Z.of_N (N_of_ascii c) - 48.

Fixpoint lstrip (s : string) : string :=
  match s with
  | String c rest => if is_space c then lstrip rest else s
  | EmptyString => s
  end.

Fixpoint rstrip (s : string) : string :=
  match s with
  | String c rest =>
      match rstrip rest with
      | EmptyString => if is_space c then EmptyString else String c EmptyString
      | rest' => String c rest'
      end
  | EmptyString => s
  end.

(** Decimal digits, with single underscores allowed between digits. *)
Fixpoint int_digits (s : string) (acc : Z) (after_digit : bool) : option Z :=
  match s with
  | EmptyString => if after_digit then Some acc else None
  | String c rest =>
      if is_digit c then int_digits rest (10 * acc + digit_value c) true
      else if (c =? "_")%char && after_digit then int_digits rest acc false
      else None
  end.

Definition int_of_str (s : string) : option Z :=
  match rstrip (lstrip s) with
  | String "+" rest => int_digits rest 0 false
  | String "-" rest => Z.opp <$> int_digits rest 0 false
  | t => int_digits t 0 false
  end.

Fixpoint count_digits (s : string) : Z :=
  match s with
  | String c rest => (if is_digit c then 1 else 0) + count_digits rest
  | EmptyString => 0
  end.

(** [int(s)] on ASCII text: the number, or ValueError. A number of more
    than 4300 digits is refused, as the interpreter does by default. *)
Definition int_ascii (s : string) : result Z :=
  match int_of_str s with
  | Some n =>
      if count_digits s <=? 4300 then Returns n
      else
        Raises (Exception ValueError
          ("Exceeds the limit (4300 digits) for integer string conversion: value has "
           +:+ str_of_Z (count_digits s)
           +:+ " digits; use sys.set_int_max_str_digits() to increase the limit"))
  | None =>
      Raises (Exception ValueError
                ("invalid literal for int() with base 10: '" +:+ s +:+ "'"))
  end.

(** The [value] argument of [jitter_timestamp]: an [int], or a [str] as a
    recipe gives it. *)
Inductive offset_arg : Type :=
| IntArg (n : Z)
| StrArg (s : string).

(** ** The field *)

(** A pydicom data element: [field.element.value] and [field.element.VR]. *)
Record DataElement : Type := { value : pyvalue; VR : string }.

Record Field : Type := { name : string; element : DataElement }.

(** [original.startswith("[") and original.endswith("]")]. *)
Definition startswith_bracket (s : string) : bool :=
  match s with
  | String c _ => (c =? "[")%char
  | EmptyString => false
  end.

Fixpoint endswith_bracket (s : string) : bool :=
  match s with
  | String c EmptyString => (c =? "]")%char
  | String _ rest => endswith_bracket rest
  | EmptyString => false
  end.

Definition bracketed (s : string) : bool :=
  startswith_bracket s && endswith_bracket s.

(** ["\\".join(str(v) for v in jittered_values)]: the separator is one
    backslash. *)
Definition backslash_join (jittered_values : list pyobj) : string :=
  String.concat "\" (List.map py_str jittered_values).

(** The format strings handed to [get_timestamp]. *)
Definition fmt_date : string := "%Y%m%d".
Definition fmt_seconds : string := "%Y%m%d%H%M%S".
Definition fmt_micro : string := "%Y%m%d%H%M%S.%f".
Definition fmt_micro_tz : string := "%Y%m%d%H%M%S.%f%z".

(** The warning of line 146, for an element of a multi-value field. *)
Definition value_not_supported (single_date : pyobj) (dcmvr field_name : string)
  : log_record :=
  bot_warning
    ("JITTER not supported for value '" +:+ py_str single_date
     +:+ "' with VR=" +:+ dcmvr +:+ " in field " +:+ field_name).

(** The warning of line 237, for a single value. *)
Definition field_not_supported (field_name : string) (original : pyobj)
    (dcmvr : string) : log_record :=
  bot_warning
    ("JITTER not supported for field " +:+ field_name +:+ " with value '"
     +:+ py_str original +:+ "' and VR=" +:+ dcmvr).

(** The closing debug record of line 243. *)
Definition returning_value (new_value : pyobj) (field_name : string)
  : log_record :=
  bot_debug
    ("Jitter returning value: " +:+ py_str new_value +:+ " (type: "
     +:+ py_type new_value +:+ ") for field " +:+ field_name).

(** ** jitter_timestamp *)

Section Jitter.

(** The built-in [int()] on a [str]: the integer, or the exception. *)
Variable builtin_int : string -> result Z.

(** [deid.utils.get_timestamp(item_date, jitter_days=..., format=...)]:
    it returns the shifted text, or raises an [Exception]. *)
Variable get_timestamp : pyobj -> Z -> string -> result string.

(** [ast.literal_eval] on a string: the value, or the exception. *)
Variable literal_eval : string -> result pyvalue.

(** [value if isinstance(value, int) else int(value)], and likewise
    [int(1)] for the default of an option. *)
Definition py_int (value : offset_arg) : result Z :=
match value with
| IntArg n => Returns n
| StrArg s => builtin_int s
end.

(** The [for fmtstr in [...]] loop with its [try]/[break]: the first
    format for which [get_timestamp] returns ends the loop, every
    format that raises sends a warning. The variable keeps [None] when
    every format raises. *)
Fixpoint try_formats (fmts : list string) (date : pyobj) (days : Z)
  : logged (option string) :=
  match fmts with
  | [] => pure None
  | fmtstr :: rest =>
      match get_timestamp date days fmtstr with
      | Returns s => pure (Some s)
      | Raises e =>
          let* _ := emit (bot_warning
            ("Failed to jitter " +:+ py_str date +:+ " with format "
             +:+ fmtstr +:+ ": " +:+ exn_text e)) in
          try_formats rest date days
      end
  end.

(** The body of the outer [try]: the branch on the value representation.
    The source writes it out twice, for an element of a multi-value
    field (lines 85-136) and for a single value (lines 178-227), with
    the same formats and messages. An exception that leaves it is the
    one the outer [except Exception] catches. *)
Definition shift_by_vr (dcmvr : string) (date : pyobj) (days : Z)
  : logged (result (option string)) :=
  if (dcmvr =? "DA")%string then
    match get_timestamp date days fmt_date with
    | Returns s => pure (Returns (Some s))
    | Raises e => pure (Raises e)
    end
  else if (dcmvr =? "DT")%string then
    match get_timestamp date days fmt_micro with
    | Returns s => pure (Returns (Some s))
    | Raises e =>
        let* _ := emit (bot_warning
          ("Failed with microseconds format for " +:+ py_str date
           +:+ ": " +:+ exn_text e)) in
        match get_timestamp date days fmt_micro_tz with
        | Returns s => pure (Returns (Some s))
        | Raises e2 =>
            let* _ := emit (bot_warning
              ("Failed with timezone format for " +:+ py_str date
               +:+ ": " +:+ exn_text e2)) in
            match get_timestamp date days fmt_seconds with
            | Returns s => pure (Returns (Some s))
            | Raises e3 => pure (Raises e3)
            end
        end
    end
  else
    let* r := try_formats [fmt_date; fmt_seconds; fmt_micro; fmt_micro_tz]
                date days in
    pure (Returns r).

(** One turn of the loop over a multi-value field (lines 80-151): the
    value appended to [jittered_values]. *)
Definition jitter_single_date (field_name dcmvr : string) (days : Z)
    (single_date : pyobj) : logged pyobj :=
  let* r := shift_by_vr dcmvr single_date days in
  let* single_jittered :=
    match r with
    | Returns v => pure v
    | Raises e =>
        let* _ := emit (bot_error
          ("Unexpected error jittering date " +:+ py_str single_date
           +:+ " in field " +:+ field_name +:+ ": " +:+ exn_text e)) in
        pure None
    end in
  if truthy single_jittered then
  pure (match single_jittered with Some s => PyStr s | None => PyNone end)
else
  let* _ := emit (value_not_supported single_date dcmvr field_name) in
  pure single_date.

(** [for i, single_date in enumerate(original)], appending to
    [jittered_values]. *)
Fixpoint jitter_each (field_name dcmvr : string) (days : Z)
    (original jittered_values : list pyobj) : logged (list pyobj) :=
  match original with
  | [] => pure jittered_values
  | single_date :: rest =>
      let* v := jitter_single_date field_name dcmvr days single_date in
      jitter_each field_name dcmvr days rest (jittered_values ++ [v])
  end.

(** The multi-value branch (lines 75-169): the joined string. *)
Definition jitter_multi (field_name dcmvr : string) (days : Z)
    (is_MultiValue : bool) (original : list pyobj) : logged pyobj :=
let* _ := emit (bot_info
  ("Processing " +:+ str_of_Z (Z.of_nat (length original))
   +:+ " dates for multi-value field " +:+ field_name)) in
let* jittered_values := jitter_each field_name dcmvr days original [] in
let new_value := backslash_join jittered_values in
let* _ := emit (bot_debug
  ((if is_MultiValue
    then "Converted MultiValue to backslash-separated string: "
    else "Converting list to backslash-separated string: ")
   +:+ new_value)) in
let* _ := emit (bot_debug
  ("Completed jittering " +:+ str_of_Z (Z.of_nat (length jittered_values))
   +:+ " dates for field " +:+ field_name)) in
pure (PyStr new_value).

(** The single-value branch (lines 175-239). The final warning does not
    change [new_value]. *)
Definition jitter_single (field_name dcmvr : string) (days : Z)
    (original : pyobj) : logged pyobj :=
let* r := shift_by_vr dcmvr original days in
let* new_value :=
  match r with
  | Returns v => pure v
  | Raises e =>
      let* _ := emit (bot_error
        ("Unexpected error jittering single value " +:+ py_str original
         +:+ " in field " +:+ field_name +:+ ": " +:+ exn_text e)) in
      pure None
  end in
let* _ :=
  if truthy new_value then pure tt
  else emit (field_not_supported field_name original dcmvr) in
pure (match new_value with Some s => PyStr s | None => PyNone end).

(** Lines 67-239: [is_multi_value = isinstance(original, (MultiValue,
    list))] and the branch on it. *)
Definition jitter_value (field_name dcmvr : string) (days : Z)
    (original : pyvalue) : logged pyobj :=
match original with
| MultiValue items => jitter_multi field_name dcmvr days true items
| PyList items => jitter_multi field_name dcmvr days false items
| Single o => jitter_single field_name dcmvr days o
end.

(** Lines 49-64: a string in brackets is handed to [ast.literal_eval];
    [ValueError] and [SyntaxError] are caught, with a warning; any other
    exception leaves the function. *)
Definition parse_bracketed (field_name : string) (original : pyvalue)
  : logged (result pyvalue) :=
match original with
| Single (PyStr s) =>
    if bracketed s then
      match literal_eval s with
      | Returns v => pure (Returns v)
      | Raises e =>
          if is_ValueError_or_SyntaxError e then
            let* _ := emit (bot_warning
              ("Failed to parse string as list for field " +:+ field_name
               +:+ ": " +:+ exn_text e +:+ ". Treating as single value.")) in
            pure (Returns original)
          else pure (Raises e)
      end
    else pure (Returns original)
| _ => pure (Returns original)
end.

(** The closing [bot.debug] and [return new_value]. *)
Definition jitter_return (field_name : string) (new_value : pyobj)
  : logged (result pyvalue) :=
let* _ := emit (returning_value new_value field_name) in
pure (Returns (Single new_value)).

(** [jitter_timestamp(field, value)]; the second argument is [days]
    here, before and after its coercion to [int]. An exception that
    reaches the caller is [Raises]; the records sent before it stay in
    the log. *)
Definition jitter_timestamp (field : Field) (days : offset_arg)
  : logged (result pyvalue) :=
match py_int days with
| Raises e => pure (Raises e)
| Returns days =>
    match field.(element).(value) with
    | Single PyNone =>
        let* _ := emit (bot_debug
          ("Field " +:+ field.(name)
           +:+ " has None/empty value, skipping jitter")) in
        jitter_return field.(name) PyNone
    | original =>
        let* parsed := parse_bracketed field.(name) original in
        match parsed with
        | Raises e => pure (Raises e)
        | Returns original =>
            let dcmvr := field.(element).(VR) in
            let* new_value := jitter_value field.(name) dcmvr days original in
            jitter_return field.(name) new_value
        end
    end
end.

(** [jitter_timestamp_func], from [opts = parse_keyvalue_pairs(extras)]
    on: the option map is its input here. [jitter_offset] is lines 20-24,
    the resolution of the offset. *)
Definition jitter_offset (opts : gmap string string) : result Z :=
match
  match opts !! "days" with
  | Some d => py_int (StrArg d)
  | None => py_int (IntArg 1)
  end
with
| Raises e => Raises e
| Returns days =>
    match opts !! "years" with
    | Some y =>
        match py_int (StrArg y) with
        | Raises e => Raises e
        | Returns years => Returns (years * 365 + days)
        end
    | None => Returns days
    end
end.

Definition jitter_timestamp_func (field : Field) (opts : gmap string string)
  : logged (result pyvalue) :=
match jitter_offset opts with
| Raises e => pure (Raises e)
| Returns days => jitter_timestamp field (IntArg days)
end.

End Jitter.

(** ** The shift primitive *)

(** A parsed timestamp; [tz] is the offset from UTC in minutes, when the
    pattern has one. *)
Record timestamp : Type := {
  year : Z; month : Z; day : Z;
  hour : Z; minute : Z; second : Z; microsecond : Z;
  tz : option Z
}.

Definition epoch : timestamp :=
  {| year := 1900; month := 1; day := 1;
     hour := 0; minute := 0; second := 0; microsecond := 0; tz := None |}.

(** Exactly [n] decimal digits at the head of [s]. *)
Fixpoint take_digits (n : nat) (s : string) (acc : Z) : option (Z * string) :=
  match n with
  | O => Some (acc, s)
  | S n' =>
      match s with
      | String c rest =>
          if is_digit c then take_digits n' rest (10 * acc + digit_value c)
          else None
      | EmptyString => None
      end
  end.

(** Between one and [n] digits, as many as there are; the count comes
    back with the number. *)
Fixpoint take_upto (n : nat) (s : string) (acc : Z) (taken : nat)
  : Z * nat * string :=
  match n, s with
  | S n', String c rest =>
      if is_digit c
      then take_upto n' rest (10 * acc + digit_value c) (S taken)
      else (acc, taken, s)
  | _, _ => (acc, taken, s)
  end.

Definition with_field (d : ascii) (v : Z) (t : timestamp) : timestamp :=
  {| year := if (d =? "Y")%char then v else year t;
     month := if (d =? "m")%char then v else month t;
     day := if (d =? "d")%char then v else day t;
     hour := if (d =? "H")%char then v else hour t;
     minute := if (d =? "M")%char then v else minute t;
     second := if (d =? "S")%char then v else second t;
     microsecond := if (d =? "f")%char then v else microsecond t;
     tz := tz t |}.

Definition with_tz (minutes : Z) (t : timestamp) : timestamp :=
  {| year := year t; month := month t; day := day t;
     hour := hour t; minute := minute t; second := second t;
     microsecond := microsecond t; tz := Some minutes |}.

(** The width of a numeric directive: four digits of year, two of the
    other fields. *)
Definition directive_width (d : ascii) : option nat :=
  if (d =? "Y")%char then Some 4%nat
  else if ((d =? "m") || (d =? "d") || (d =? "H") || (d =? "M")
           || (d =? "S"))%char then Some 2%nat
  else None.

(** One [%] directive read off the text. *)
Definition read_directive (d : ascii) (s : string) (t : timestamp)
  : option (timestamp * string) :=
  match directive_width d with
  | Some n =>
      match take_digits n s 0 with
      | Some (v, rest) => Some (with_field d v t, rest)
      | None => None
      end
  | None =>
      if (d =? "f")%char then
        match take_upto 6 s 0 0 with
        | (_, O, _) => None
        | (v, n, rest) =>
            Some (with_field d (v * 10 ^ Z.of_nat (6 - n)) t, rest)
        end
      else if (d =? "z")%char then
        match s with
        | String sign rest =>
            if ((sign =? "+") || (sign =? "-"))%char then
              match take_digits 2 rest 0 with
              | Some (hh, rest1) =>
                  match take_digits 2 rest1 0 with
                  | Some (mm, rest2) =>
                      if mm <? 60 then
                        let minutes := hh * 60 + mm in
                        Some (with_tz (if (sign =? "-")%char
                                       then - minutes else minutes) t, rest2)
                      else None
                  | None => None
                  end
              | None => None
              end
            else None
        | EmptyString => None
        end
      else None
  end.

(** The text against the pattern: every directive and every literal
    character in turn, and nothing left over. *)
Fixpoint strptime (fmt s : string) (t : timestamp) : option timestamp :=
  match fmt with
  | EmptyString => match s with EmptyString => Some t | _ => None end
  | String c fmt1 =>
      if (c =? "%")%char then
        match fmt1 with
        | String d fmt2 =>
            match read_directive d s t with
            | Some (t', rest) => strptime fmt2 rest t'
            | None => None
            end
        | EmptyString => None
        end
      else
        match s with
        | String c' rest =>
            if (c =? c')%char then strptime fmt1 rest t else None
        | EmptyString => None
        end
  end.

(** The proleptic Gregorian calendar: days since 1970-01-01. *)
Definition days_from_civil (y m d : Z) : Z :=
  let y := if m <=? 2 then y - 1 else y in
  let era := y / 400 in
  let yoe := y - era * 400 in
  let doy := (153 * ((m + 9) mod 12) + 2) / 5 + d - 1 in
  let doe := yoe * 365 + yoe / 4 - yoe / 100 + doy in
  era * 146097 + doe - 719468.

Definition civil_from_days (z : Z) : Z * Z * Z :=
  let z := z + 719468 in
  let era := z / 146097 in
  let doe := z - era * 146097 in
  let yoe := (doe - doe / 1460 + doe / 36524 - doe / 146096) / 365 in
  let doy := doe - (365 * yoe + yoe / 4 - yoe / 100) in
  let mp := (5 * doy + 2) / 153 in
  let d := doy - (153 * mp + 2) / 5 + 1 in
  let m := if mp <? 10 then mp + 3 else mp - 9 in
  (if m <=? 2 then yoe + era * 400 + 1 else yoe + era * 400, m, d).

Definition is_leap (y : Z) : bool :=
  (y mod 4 =? 0) && (negb (y mod 100 =? 0) || (y mod 400 =? 0)).

Definition days_in_month (y m : Z) : Z :=
  if m =? 2 then (if is_leap y then 29 else 28)
  else if (m =? 4) || (m =? 6) || (m =? 9) || (m =? 11) then 30 else 31.

Definition valid_timestamp (t : timestamp) : bool :=
  (1 <=? year t) && (year t <=? 9999)
  && (1 <=? month t) && (month t <=? 12)
  && (1 <=? day t) && (day t <=? days_in_month (year t) (month t))
  && (hour t <=? 23) && (minute t <=? 59) && (second t <=? 59).

(** [timestamp + timedelta(days=jitter_days)]: the date moves, the time
    of day and the offset from UTC stay. *)
Definition add_days (t : timestamp) (jitter_days : Z) : timestamp :=
  let '(y, m, d) :=
    civil_from_days (days_from_civil (year t) (month t) (day t) + jitter_days) in
  {| year := y; month := m; day := d;
     hour := hour t; minute := minute t; second := second t;
     microsecond := microsecond t; tz := tz t |}.

(** [n] as [width] digits, zeros in front. *)
Fixpoint zero_padded (width : nat) (n : Z) : string :=
  match width with
  | O => EmptyString
  | S w =>
      zero_padded w (n / 10)
      +:+ String (ascii_of_N (Z.to_N (48 + n mod 10))) EmptyString
  end.

Definition write_directive (d : ascii) (t : timestamp) : string :=
  if (d =? "Y")%char then zero_padded 4 (year t)
  else if (d =? "m")%char then zero_padded 2 (month t)
  else if (d =? "d")%char then zero_padded 2 (day t)
  else if (d =? "H")%char then zero_padded 2 (hour t)
  else if (d =? "M")%char then zero_padded 2 (minute t)
  else if (d =? "S")%char then zero_padded 2 (second t)
  else if (d =? "f")%char then zero_padded 6 (microsecond t)
  else if (d =? "z")%char then
    match tz t with
    | Some minutes =>
        (if minutes <? 0 then "-" else "+")
        +:+ zero_padded 2 (Z.abs minutes / 60)
        +:+ zero_padded 2 (Z.abs minutes mod 60)
    | None => EmptyString
    end
  else EmptyString.

Fixpoint strftime (fmt : string) (t : timestamp) : string :=
  match fmt with
  | EmptyString => EmptyString
  | String c fmt1 =>
      if (c =? "%")%char then
        match fmt1 with
        | String d fmt2 => write_directive d t +:+ strftime fmt2 t
        | EmptyString => EmptyString
        end
      else String c (strftime fmt1 t)
  end.

Definition mismatch (item_date : pyobj) (format : string) : exn :=
  Exception ValueError
    ("time data '" +:+ py_str item_date +:+ "' does not match format '"
     +:+ format +:+ "'").

(** Modelled from the spec: [get_timestamp] of [deid.utils] is not among
    the sources. It is the spec's external shift primitive
    [shift(raw_string, jitter_days, format_pattern)]: the text is parsed
    with the pattern, moved by the days and rendered with the same
    pattern; a text the pattern does not match raises, and so does a date
    that leaves the years 1 to 9999. An element that is not a [str] is
    read through its text, as the spec's collection-literal example has
    the parsed elements shifted. *)
Definition get_timestamp_model (item_date : pyobj) (jitter_days : Z)
    (format : string) : result string :=
  match strptime format (py_str item_date) epoch with
  | Some t =>
      if valid_timestamp t then
        let t' := add_days t jitter_days in
        if (1 <=? year t') && (year t' <=? 9999)
        then Returns (strftime format t')
        else Raises (Exception OverflowError "date value out of range")
      else Raises (mismatch item_date format)
  | None => Raises (mismatch item_date format)
  end.

(** ** Literal lists *)

Definition is_quote (c : ascii) : bool :=
  let n := N_of_ascii c in ((n =? 34) || (n =? 39))%N.

(** The text between the brackets cut at its commas; a comma inside a
    quoted string does not cut. [quote] is the open quote, [cur] the
    piece read so far. *)
Fixpoint split_items (s : string) (quote : option ascii) (cur : string)
  : list string :=
  match s with
  | EmptyString => [cur]
  | String c rest =>
      match quote with
      | Some q =>
          split_items rest (if (c =? q)%char then None else quote)
            (cur +:+ String c EmptyString)
      | None =>
          if (c =? ",")%char then cur :: split_items rest None EmptyString
          else split_items rest (if is_quote c then Some c else None)
                 (cur +:+ String c EmptyString)
      end
  end.

Fixpoint all_digits (s : string) : bool :=
  match s with
  | EmptyString => true
  | String c rest => is_digit c && all_digits rest
  end.

Fixpoint all_zeros (s : string) : bool :=
  match s with
  | EmptyString => true
  | String c rest => (c =? "0")%char && all_zeros rest
  end.

(** A decimal integer literal: digits, with no zero in front of a number
    that is not zero. *)
Definition decimal_literal (s : string) : option Z :=
  match s with
  | EmptyString => None
  | String c _ =>
      if all_digits s && (negb (c =? "0")%char || all_zeros s)
      then int_digits s 0 false
      else None
  end.

(** The inside of a quoted string that has no quote and no backslash in
    it: [body] is the text after the opening quote [q]. *)
Fixpoint quoted_body (q : ascii) (body : string) : option string :=
  match body with
  | EmptyString => None
  | String c EmptyString => if (c =? q)%char then Some EmptyString else None
  | String c rest =>
      if (c =? q)%char || (c =? "\")%char then None
      else String c <$> quoted_body q rest
  end.

(** One item of the list: an integer, a negated integer, [None] or a
    quoted string. *)
Definition literal_item (s : string) : option pyobj :=
  match s with
  | String c rest =>
      if is_quote c then PyStr <$> quoted_body c rest
      else if (c =? "-")%char then
        (fun n => PyInt (- n)) <$> decimal_literal (lstrip rest)
      else if (s =? "None")%string then Some PyNone
      else PyInt <$> decimal_literal s
  | EmptyString => None
  end.

Fixpoint literal_items (pieces : list string) : option (list pyobj) :=
  match pieces with
  | [] => Some []
  | piece :: rest =>
      match literal_item (rstrip (lstrip piece)), literal_items rest with
      | Some o, Some os => Some (o :: os)
      | _, _ => None
      end
  end.

(** Drops the last character. *)
Fixpoint without_last (s : string) : string :=
  match s with
  | String c EmptyString => EmptyString
  | String c rest => String c (without_last rest)
  | EmptyString => EmptyString
  end.

(** Drops an empty last piece: the comma after the last item, or the
    inside of an empty list. *)
Fixpoint without_empty_tail (pieces : list string) : list string :=
  match pieces with
  | [] => []
  | [piece] =>
      match rstrip (lstrip piece) with
      | EmptyString => []
      | _ => [piece]
      end
  | piece :: rest => piece :: without_empty_tail rest
  end.

(** [ast.literal_eval] on the lists this development evaluates: the
    text in brackets of integers, [None] and plainly quoted strings, with
    commas between. What it returns on such a text is the Python list.
    Any other text is outside this fragment and raises [SyntaxError]
    here; the theorems on every text are stated for the Section's
    [literal_eval], not for this function. *)
Definition literal_eval_list (s : string) : result pyvalue :=
  match s with
  | String c rest =>
      if (c =? "[")%char && endswith_bracket rest then
        match literal_items (without_empty_tail
                (split_items (without_last rest) None EmptyString)) with
        | Some items => Returns (PyList items)
        | None => Raises (Exception SyntaxError "invalid syntax")
        end
      else Raises (Exception SyntaxError "invalid syntax")
  | EmptyString => Raises (Exception SyntaxError "invalid syntax")
  end.

(** ** The notions the properties are stated with *)

Definition mk_field (field_name dcmvr : string) (v : pyvalue) : Field :=
  {| name := field_name; element := {| value := v; VR := dcmvr |} |}.

(** First match wins: the result for the first pattern of the list, in
    its order, on which the primitive returns. *)
Fixpoint first_match (get_timestamp : pyobj -> Z -> string -> result string)
    (fmts : list string) (date : pyobj) (days : Z) : option string :=
  match fmts with
  | [] => None
  | fmtstr :: rest =>
      match get_timestamp date days fmtstr with
      | Returns s => Some s
      | Raises _ => first_match get_timestamp rest date days
      end
  end.

(** The patterns of the list that raise before the first one that
    returns, each with its exception. *)
Fixpoint failed_formats (get_timestamp : pyobj -> Z -> string -> result string)
    (fmts : list string) (date : pyobj) (days : Z) : list (string * exn) :=
  match fmts with
  | [] => []
  | fmtstr :: rest =>
      match get_timestamp date days fmtstr with
      | Returns _ => []
      | Raises e => (fmtstr, e) :: failed_formats get_timestamp rest date days
      end
  end.

(** The variable [new_value] (or [single_jittered]) after the outer
    [try]: [None] when the exception was caught there. *)
Definition shift_outcome (get_timestamp : pyobj -> Z -> string -> result string)
    (dcmvr : string) (date : pyobj) (days : Z) : option string :=
  match fst (shift_by_vr get_timestamp dcmvr date days) with
  | Returns v => v
  | Raises _ => None
  end.

Definition to_pyobj (v : option string) : pyobj :=
  match v with
  | Some s => PyStr s
  | None => PyNone
  end.

(** What a multi-value field keeps of one element: the shifted text, or
    the element itself when there is none. *)
Definition shifted_or_original
    (get_timestamp : pyobj -> Z -> string -> result string)
    (dcmvr : string) (days : Z) (single_date : pyobj) : pyobj :=
  let v := shift_outcome get_timestamp dcmvr single_date days in
  if truthy v then to_pyobj v else single_date.

(** The candidate patterns of a value representation, in the order
    they are tried. *)
Definition candidates (dcmvr : string) : list string :=
  if (dcmvr =? "DA")%string then [fmt_date]
  else if (dcmvr =? "DT")%string then [fmt_micro; fmt_micro_tz; fmt_seconds]
  else [fmt_date; fmt_seconds; fmt_micro; fmt_micro_tz].

(** A warning that starts with [Failed]: the miss of a pattern. *)
Definition is_failed_warning (r : log_record) : Prop :=
  exists m, r = bot_warning ("Failed" +:+ m).

(** The options as the spec reads them: the integer under [days], 1
    without the key; 365 days for each year under [years], none without
    the key. *)
Definition days_option (builtin_int : string -> result Z)
    (opts : gmap string string) : result Z :=
  match opts !! "days" with
  | Some d => builtin_int d
  | None => Returns 1
  end.

Definition years_option (builtin_int : string -> result Z)
    (opts : gmap string string) : result Z :=
  match opts !! "years" with
  | Some y =>
      match builtin_int y with
      | Returns years => Returns (years * 365)
      | Raises e => Raises e
      end
  | None => Returns 0
  end.

(** [ast.literal_eval] on a dict display with a list for key, and on a
    set display with a list for element: the text parses, and building
    the dict or the set raises [TypeError]. Other text goes to
    [literal_eval_list]. *)
Definition literal_eval_unhashable (s : string) : result pyvalue :=
  if ((s =? "[{[]: 1}]") || (s =? "[{[]}]"))%string
  then Raises (Exception TypeError "unhashable type: 'list'")
  else literal_eval_list s.

(** [ast.literal_eval] on two list displays with a comma between: the
    value is a tuple, not a list. Other text goes to
    [literal_eval_list]. *)
Definition literal_eval_tuple (s : string) : result pyvalue :=
  if (s =? "[1], [2]")%string
  then Returns (Single (PyOther "tuple" "([1], [2])"))
  else literal_eval_list s.

(** [s.startswith(p)]. *)
Fixpoint startswith (p s : string) : bool :=
  match p, s with
  | EmptyString, _ => true
  | String a p', String b s' => (a =? b)%char && startswith p' s'
  | String _ _, EmptyString => false
  end.

(** The warnings of a log that are not the miss of a pattern. *)
Definition not_supported_warnings (l : list log_record) : list log_record :=
  List.filter
    (fun r => is_level WARNING r && negb (startswith "Failed" (snd r))) l.

(** * Properties *)

(** ** The log *)

Lemma fst_bind {A B} (m : logged A) (k : A -> logged B) :
  fst (bind m k) = fst (k (fst m)).
Proof. reflexivity. Qed.

Lemma snd_bind {A B} (m : logged A) (k : A -> logged B) :
  snd (bind m k) = snd m ++ snd (k (fst m)).
Proof. reflexivity. Qed.

Lemma at_level_app lv (l1 l2 : list log_record) :
  at_level lv (l1 ++ l2) = at_level lv l1 ++ at_level lv l2.
Proof. apply List.filter_app. Qed.

(** ** C1: a value that is absent *)

(** A field whose value is None comes back as it is: the function
    returns None, sends two debug records and nothing of another
    severity. *)
Lemma none_value_is_returned
    (builtin_int : string -> result Z)
    (get_timestamp : pyobj -> Z -> string -> result string)
    (literal_eval : string -> result pyvalue)
    (field_name dcmvr : string) (days : Z) :
  let field := mk_field field_name dcmvr (Single PyNone) in
  jitter_timestamp builtin_int get_timestamp literal_eval field (IntArg days)
  = (Returns (value (element field)),
     [bot_debug ("Field " +:+ field_name
                 +:+ " has None/empty value, skipping jitter");
      returning_value PyNone field_name])
  /\ at_level WARNING
       (snd (jitter_timestamp builtin_int get_timestamp literal_eval field (IntArg days))) = []
  /\ Forall (fun r => fst r = DEBUG)
       (snd (jitter_timestamp builtin_int get_timestamp literal_eval field (IntArg days))).
Proof.
  cbn zeta. split; [reflexivity|]. split; [reflexivity|].
  repeat constructor.
Qed.

(** C1 (the code on an empty value). The guard of line 47 lets only None
    skip the work, though the message of line 241 speaks of a value that
    is None or empty. An empty list is not returned as it is: the
    function returns the empty string for it and sends an info record.
    The empty string is not either: with the date pattern it comes back
    as None, with a warning. *)
Lemma empty_values_are_processed :
  let empty_list := mk_field "AcquisitionDate" "DA" (PyList []) in
  let empty_str := mk_field "AcquisitionDate" "DA" (Single (PyStr "")) in
  let on_list :=
    jitter_timestamp int_ascii get_timestamp_model literal_eval_list empty_list (IntArg 1) in
  let on_str :=
    jitter_timestamp int_ascii get_timestamp_model literal_eval_list empty_str (IntArg 1) in
  (fst on_list = Returns (Single (PyStr ""))
   /\ fst on_list <> Returns (value (element empty_list))
   /\ at_level INFO (snd on_list)
      = [bot_info "Processing 0 dates for multi-value field AcquisitionDate"])
  /\ (fst on_str = Returns (Single PyNone)
      /\ fst on_str <> Returns (value (element empty_str))
      /\ at_level WARNING (snd on_str)
         = [bot_warning "JITTER not supported for field AcquisitionDate with value '' and VR=DA"]).
Proof.
  cbn zeta. repeat split; try reflexivity; vm_compute; discriminate.
Qed.

(** ** C2, C10: the offset *)

Lemma py_int_StrArg (builtin_int : string -> result Z) (s : string) :
  py_int builtin_int (StrArg s) = builtin_int s.
Proof. reflexivity. Qed.

(** The resolution of the offset, by what [int()] makes of the two
    options. *)
Lemma jitter_offset_cases (builtin_int : string -> result Z)
    (opts : gmap string string) :
  jitter_offset builtin_int opts
  = match days_option builtin_int opts with
    | Raises e => Raises e
    | Returns d =>
        match years_option builtin_int opts with
        | Raises e => Raises e
        | Returns y => Returns (d + y)
        end
    end.
Proof.
  unfold days_option, years_option, jitter_offset.
  destruct (opts !! "days") as [ds|]; cbn [py_int].
  - destruct (builtin_int ds) as [d|e]; [|reflexivity].
    destruct (opts !! "years") as [ys|].
    + destruct (builtin_int ys) as [y|e]; [|reflexivity]. f_equal. lia.
    + f_equal. lia.
  - destruct (opts !! "years") as [ys|].
    + destruct (builtin_int ys) as [y|e]; [|reflexivity]. f_equal. lia.
    + f_equal.
Qed.

(** C2 (as the code has it). Whatever [int()] is: when it returns on the
    value under [days] (1 without the key) and on the value under
    [years] (when the key is there), the offset is the days plus 365 for
    each year. When it raises on one of them, nothing is put in its
    place: the resolution raises that exception, the one of [days]
    first. *)
Theorem jitter_offset_resolution (builtin_int : string -> result Z)
    (opts : gmap string string) :
  (forall d y,
     days_option builtin_int opts = Returns d ->
     years_option builtin_int opts = Returns y ->
     jitter_offset builtin_int opts = Returns (d + y))
  /\ (forall e,
        days_option builtin_int opts = Raises e ->
        jitter_offset builtin_int opts = Raises e)
  /\ (forall d e,
        days_option builtin_int opts = Returns d ->
        years_option builtin_int opts = Raises e ->
        jitter_offset builtin_int opts = Raises e).
Proof.
  rewrite jitter_offset_cases. split; [|split].
  - intros d y -> ->. reflexivity.
  - intros e ->. reflexivity.
  - intros d e -> ->. reflexivity.
Qed.

(** C2 (witness). Three days and one year back are 362 days back; no
    option is one day; a year that is no integer raises ValueError. *)
Lemma jitter_offset_resolution_witness :
  jitter_offset int_ascii {[ "days" := "3"; "years" := "-1" ]}
  = Returns (3 + -365)
  /\ jitter_offset int_ascii ∅ = Returns (1 + 0)
  /\ jitter_offset int_ascii {[ "years" := "two" ]}
     = Raises (Exception ValueError
                 "invalid literal for int() with base 10: 'two'").
Proof.
  split; [|split].
  - apply (proj1 (jitter_offset_resolution int_ascii
                    {[ "days" := "3"; "years" := "-1" ]})); reflexivity.
  - apply (proj1 (jitter_offset_resolution int_ascii ∅)); reflexivity.
  - apply (proj2 (proj2 (jitter_offset_resolution int_ascii
                           {[ "years" := "two" ]})) 1); reflexivity.
Defined.

(** C2 (counterexample). A [days] option that is no integer makes the
    resolution raise ValueError, where the claim has it never raise. *)
Lemma jitter_offset_raises :
  jitter_offset int_ascii {[ "days" := "abc" ]}
  = Raises (Exception ValueError "invalid literal for int() with base 10: 'abc'").
Proof. reflexivity. Qed.

(** C10. A [value] that is no [int] goes through [int()] before anything
    else. Whatever [int()] is: where it returns, the call is the call
    with that integer; where it raises, the exception reaches the caller
    with nothing done and nothing logged. On ["abc"] and on ["1.5"] it
    raises ValueError, and so does the call. An [int] is taken as it
    is. *)
Theorem offset_is_coerced_first
    (builtin_int : string -> result Z)
    (get_timestamp : pyobj -> Z -> string -> result string)
    (literal_eval : string -> result pyvalue) (field : Field) :
  (forall s,
     jitter_timestamp builtin_int get_timestamp literal_eval field (StrArg s)
     = match builtin_int s with
       | Returns n =>
           jitter_timestamp builtin_int get_timestamp literal_eval field
             (IntArg n)
       | Raises e => (Raises e, [])
       end)
  /\ jitter_timestamp int_ascii get_timestamp literal_eval field (StrArg "abc")
     = (Raises (Exception ValueError
                  "invalid literal for int() with base 10: 'abc'"), [])
  /\ jitter_timestamp int_ascii get_timestamp literal_eval field (StrArg "1.5")
     = (Raises (Exception ValueError
                  "invalid literal for int() with base 10: '1.5'"), [])
  /\ (forall n, py_int builtin_int (IntArg n) = Returns n).
Proof.
  split; [|split; [reflexivity|split; reflexivity]].
  intros s. unfold jitter_timestamp. cbn [py_int].
  destruct (builtin_int s); reflexivity.
Qed.

(** ** The cascade of patterns *)

Section Cascade.

Variable builtin_int : string -> result Z.
Variable get_timestamp : pyobj -> Z -> string -> result string.
Variable literal_eval : string -> result pyvalue.

Lemma try_formats_first_match fmts date days :
  fst (try_formats get_timestamp fmts date days)
  = first_match get_timestamp fmts date days.
Proof.
  induction fmts as [|fmtstr rest IH]; [reflexivity|].
  cbn [try_formats first_match].
  destruct (get_timestamp date days fmtstr); [reflexivity|].
  rewrite fst_bind. exact IH.
Qed.

Lemma try_formats_log fmts date days :
  snd (try_formats get_timestamp fmts date days)
  = List.map
      (fun fe => bot_warning
         ("Failed to jitter " +:+ py_str date +:+ " with format "
          +:+ fst fe +:+ ": " +:+ exn_text (snd fe)))
      (failed_formats get_timestamp fmts date days).
Proof.
  induction fmts as [|fmtstr rest IH]; [reflexivity|].
  cbn [try_formats failed_formats].
  destruct (get_timestamp date days fmtstr); [reflexivity|].
  rewrite snd_bind. cbn [emit snd List.map fst app]. f_equal. exact IH.
Qed.

(** Whatever the value representation, the variable after the outer
    [try] holds the first match among its candidates. *)
Lemma shift_outcome_first_match dcmvr date days :
  shift_outcome get_timestamp dcmvr date days
  = first_match get_timestamp (candidates dcmvr) date days.
Proof.
  unfold shift_outcome, shift_by_vr, candidates.
  destruct (dcmvr =? "DA")%string.
  - cbn [first_match]. destruct (get_timestamp date days fmt_date); reflexivity.
  - destruct (dcmvr =? "DT")%string.
    + cbn [first_match].
      destruct (get_timestamp date days fmt_micro); [reflexivity|].
      rewrite fst_bind.
      destruct (get_timestamp date days fmt_micro_tz); [reflexivity|].
      rewrite fst_bind.
      destruct (get_timestamp date days fmt_seconds); reflexivity.
    + rewrite fst_bind. cbn [pure fst]. apply try_formats_first_match.
Qed.

(** The generic cascade lets no exception out. *)
Lemma shift_by_vr_generic dcmvr date days :
  (dcmvr =? "DA")%string = false -> (dcmvr =? "DT")%string = false ->
  shift_by_vr get_timestamp dcmvr date days
  = (Returns (first_match get_timestamp
                [fmt_date; fmt_seconds; fmt_micro; fmt_micro_tz] date days),
     snd (try_formats get_timestamp
            [fmt_date; fmt_seconds; fmt_micro; fmt_micro_tz] date days)).
Proof.
  intros Hda Hdt. unfold shift_by_vr. rewrite Hda, Hdt.
  unfold bind. cbn [pure fst snd]. rewrite try_formats_first_match.
  rewrite app_nil_r. reflexivity.
Qed.

Lemma try_formats_failed fmts date days :
  Forall is_failed_warning (snd (try_formats get_timestamp fmts date days)).
Proof.
  rewrite try_formats_log. apply Forall_map, Forall_forall. intros fe _.
  eexists. reflexivity.
Qed.

Lemma shift_by_vr_failed dcmvr date days :
  Forall is_failed_warning (snd (shift_by_vr get_timestamp dcmvr date days)).
Proof.
  unfold shift_by_vr.
  destruct (dcmvr =? "DA")%string.
  - destruct (get_timestamp date days fmt_date); constructor.
  - destruct (dcmvr =? "DT")%string.
    + destruct (get_timestamp date days fmt_micro); [constructor|].
      rewrite snd_bind. cbn [emit snd app]. constructor; [eexists; reflexivity|].
      destruct (get_timestamp date days fmt_micro_tz); [constructor|].
      rewrite snd_bind. cbn [emit snd app]. constructor; [eexists; reflexivity|].
      destruct (get_timestamp date days fmt_seconds); constructor.
    + rewrite snd_bind. cbn [pure snd]. rewrite app_nil_r.
      apply try_formats_failed.
Qed.

(** ** The two branches *)

Lemma jitter_single_value field_name dcmvr days original :
  fst (jitter_single get_timestamp field_name dcmvr days original)
  = to_pyobj (shift_outcome get_timestamp dcmvr original days).
Proof.
  unfold jitter_single, shift_outcome. rewrite !fst_bind.
  destruct (fst (shift_by_vr get_timestamp dcmvr original days)); reflexivity.
Qed.

Lemma jitter_single_date_value field_name dcmvr days single_date :
  fst (jitter_single_date get_timestamp field_name dcmvr days single_date)
  = shifted_or_original get_timestamp dcmvr days single_date.
Proof.
  unfold jitter_single_date, shifted_or_original, shift_outcome.
  rewrite !fst_bind.
  destruct (fst (shift_by_vr get_timestamp dcmvr single_date days)) as [v|e];
    cbn [pure fst bind emit snd].
  - destruct (truthy v); reflexivity.
  - reflexivity.
Qed.

Lemma jitter_each_values field_name dcmvr days original jittered_values :
  fst (jitter_each get_timestamp field_name dcmvr days original jittered_values)
  = jittered_values
    ++ List.map (shifted_or_original get_timestamp dcmvr days) original.
Proof.
  revert jittered_values.
  induction original as [|single_date rest IH]; intros jittered_values.
  - cbn. rewrite app_nil_r. reflexivity.
  - cbn [jitter_each List.map]. rewrite fst_bind, IH, jitter_single_date_value.
    rewrite <- app_assoc. reflexivity.
Qed.

Lemma jitter_multi_value field_name dcmvr days is_MultiValue original :
  fst (jitter_multi get_timestamp field_name dcmvr days is_MultiValue original)
  = PyStr (backslash_join
             (List.map (shifted_or_original get_timestamp dcmvr days) original)).
Proof.
  unfold jitter_multi. rewrite !fst_bind. cbn [pure fst].
  rewrite jitter_each_values. reflexivity.
Qed.

Lemma jitter_single_log field_name dcmvr days original :
  snd (jitter_single get_timestamp field_name dcmvr days original)
  = snd (shift_by_vr get_timestamp dcmvr original days)
    ++ match fst (shift_by_vr get_timestamp dcmvr original days) with
       | Returns _ => []
       | Raises e =>
           [bot_error
              ("Unexpected error jittering single value " +:+ py_str original
               +:+ " in field " +:+ field_name +:+ ": " +:+ exn_text e)]
       end
    ++ (if truthy (shift_outcome get_timestamp dcmvr original days) then []
        else [field_not_supported field_name original dcmvr]).
Proof.
  unfold jitter_single, shift_outcome, bind. cbn [fst snd].
  destruct (fst (shift_by_vr get_timestamp dcmvr original days)) as [v|e];
    cbn [pure emit fst snd app truthy].
  - destruct (truthy v); cbn [pure emit snd app]; reflexivity.
  - reflexivity.
Qed.

Lemma jitter_single_date_log field_name dcmvr days single_date :
  snd (jitter_single_date get_timestamp field_name dcmvr days single_date)
  = snd (shift_by_vr get_timestamp dcmvr single_date days)
    ++ match fst (shift_by_vr get_timestamp dcmvr single_date days) with
       | Returns _ => []
       | Raises e =>
           [bot_error
              ("Unexpected error jittering date " +:+ py_str single_date
               +:+ " in field " +:+ field_name +:+ ": " +:+ exn_text e)]
       end
    ++ (if truthy (shift_outcome get_timestamp dcmvr single_date days) then []
        else [value_not_supported single_date dcmvr field_name]).
Proof.
  unfold jitter_single_date, shift_outcome, bind. cbn [fst snd].
  destruct (fst (shift_by_vr get_timestamp dcmvr single_date days)) as [v|e];
    cbn [pure emit fst snd app truthy].
  - destruct (truthy v); cbn [pure emit fst snd app]; reflexivity.
  - reflexivity.
Qed.

Lemma jitter_each_log field_name dcmvr days original jittered_values :
  snd (jitter_each get_timestamp field_name dcmvr days original jittered_values)
  = List.concat
      (List.map
         (fun d => snd (jitter_single_date get_timestamp field_name dcmvr days d))
         original).
Proof.
  revert jittered_values.
  induction original as [|single_date rest IH]; intros jittered_values.
  - reflexivity.
  - cbn [jitter_each List.map List.concat]. rewrite snd_bind, IH. reflexivity.
Qed.

(** The whole call on a list or a MultiValue. *)
Lemma jitter_timestamp_multi field_name dcmvr days (is_MultiValue : bool) items :
  jitter_timestamp builtin_int get_timestamp literal_eval
    (mk_field field_name dcmvr
       (if is_MultiValue then MultiValue items else PyList items))
    (IntArg days)
  = let r := jitter_multi get_timestamp field_name dcmvr days is_MultiValue items in
    (Returns (Single (fst r)), snd r ++ [returning_value (fst r) field_name]).
Proof.
  unfold jitter_timestamp, mk_field. cbn [py_int value element name VR].
  destruct is_MultiValue; cbn [parse_bracketed]; unfold bind at 1, pure;
    cbn [fst snd app]; reflexivity.
Qed.

(** The whole call on a string that is not in brackets. *)
Lemma jitter_timestamp_plain field_name dcmvr days s :
  bracketed s = false ->
  jitter_timestamp builtin_int get_timestamp literal_eval
    (mk_field field_name dcmvr (Single (PyStr s))) (IntArg days)
  = let r := jitter_single get_timestamp field_name dcmvr days (PyStr s) in
    (Returns (Single (fst r)), snd r ++ [returning_value (fst r) field_name]).
Proof.
  intros Hs. unfold jitter_timestamp, mk_field.
  cbn [py_int value element name VR]. unfold parse_bracketed. rewrite Hs.
  unfold bind at 1, pure; cbn [fst snd app]. reflexivity.
Qed.

End Cascade.

Lemma failed_warning_levels (l : list log_record) :
  Forall is_failed_warning l ->
  at_level WARNING l = l /\ at_level ERROR l = [] /\ at_level INFO l = [].
Proof.
  induction 1 as [|r l [m ->] _ (Hw & He & Hi)]; [repeat split|].
  cbn. unfold at_level in *. rewrite Hw, He, Hi. repeat split.
Qed.

Lemma at_level_concat_nil lv (ls : list (list log_record)) :
  Forall (fun l => at_level lv l = []) ls -> at_level lv (List.concat ls) = [].
Proof.
  induction 1 as [|l ls Hl _ IH]; [reflexivity|].
  cbn [List.concat]. rewrite at_level_app, Hl, IH. reflexivity.
Qed.

Lemma jitter_timestamp_joined
    (builtin_int : string -> result Z)
    (get_timestamp : pyobj -> Z -> string -> result string)
    (literal_eval : string -> result pyvalue)
    (field_name dcmvr : string) (days : Z) (is_MultiValue : bool)
    (items : list pyobj) :
  fst (jitter_timestamp builtin_int get_timestamp literal_eval
         (mk_field field_name dcmvr
            (if is_MultiValue then MultiValue items else PyList items))
         (IntArg days))
  = Returns (Single (PyStr (String.concat "\"
      (List.map py_str
         (List.map (shifted_or_original get_timestamp dcmvr days) items))))).
Proof.
  rewrite jitter_timestamp_multi. cbn [fst]. rewrite jitter_multi_value.
  reflexivity.
Qed.

(** ** C4: a multi-value field *)

(** C4. On a list and on a MultiValue alike, every element is shifted by
    itself with the one offset and stays at its index: an element with a
    first match that is not empty becomes that text, any other element
    stays the element it was, and the result is the texts of all of them
    joined by one backslash. *)
Theorem collection_is_shifted_in_place
    (builtin_int : string -> result Z)
    (get_timestamp : pyobj -> Z -> string -> result string)
    (literal_eval : string -> result pyvalue)
    (field_name dcmvr : string) (days : Z) (items : list pyobj) :
  let kept := List.map (shifted_or_original get_timestamp dcmvr days) items in
  fst (jitter_timestamp builtin_int get_timestamp literal_eval
         (mk_field field_name dcmvr (PyList items)) (IntArg days))
  = Returns (Single (PyStr (String.concat "\" (List.map py_str kept))))
  /\ fst (jitter_timestamp builtin_int get_timestamp literal_eval
            (mk_field field_name dcmvr (MultiValue items)) (IntArg days))
     = Returns (Single (PyStr (String.concat "\" (List.map py_str kept))))
  /\ length kept = length items
  /\ (forall i single_date,
        nth_error items i = Some single_date ->
        nth_error kept i
        = Some match first_match get_timestamp (candidates dcmvr)
                       single_date days with
               | Some (String c s) => PyStr (String c s)
               | _ => single_date
               end).
Proof.
  cbn zeta. split; [|split; [|split]].
  - apply (jitter_timestamp_joined builtin_int get_timestamp literal_eval _ _ _ false).
  - apply (jitter_timestamp_joined builtin_int get_timestamp literal_eval _ _ _ true).
  - apply List.length_map.
  - intros i single_date Hi.
    rewrite (map_nth_error _ _ _ Hi). f_equal.
    unfold shifted_or_original. rewrite shift_outcome_first_match.
    destruct (first_match get_timestamp (candidates dcmvr) single_date days)
      as [[|c s]|]; reflexivity.
Qed.

(** C4 (witness). Three dates of a field without a known value
    representation, five days on: the one in the middle is no date and
    stays as it is between its shifted neighbours. *)
Lemma collection_is_shifted_in_place_witness :
  fst (jitter_timestamp int_ascii get_timestamp_model literal_eval_list
         (mk_field "Dates" "OB"
            (MultiValue [PyStr "20200101"; PyStr "bad"; PyStr "20200103"]))
         (IntArg 5))
  = Returns (Single (PyStr "20200106\bad\20200108"))
  /\ nth_error
       (List.map (shifted_or_original get_timestamp_model "OB" 5)
          [PyStr "20200101"; PyStr "bad"; PyStr "20200103"]) 1
     = Some (PyStr "bad").
Proof.
  split.
  - exact (proj1 (proj2 (collection_is_shifted_in_place int_ascii get_timestamp_model
      literal_eval_list "Dates" "OB" 5
      [PyStr "20200101"; PyStr "bad"; PyStr "20200103"]))).
  - apply (proj2 (proj2 (proj2 (collection_is_shifted_in_place
      int_ascii get_timestamp_model literal_eval_list "Dates" "OB" 5
      [PyStr "20200101"; PyStr "bad"; PyStr "20200103"]))) 1%nat (PyStr "bad")).
    reflexivity.
Defined.

(** ** C5: the cascade of a date-time *)

(** C5. A single date-time value gets the first match among the pattern
    with a fraction of a second, the one with a fraction and an offset
    from UTC, and the one with whole seconds, tried in this order; None
    when none matches. So ["20200101120000"], one day on, is
    ["20200102120000"], by the third pattern after the two misses that
    the log records. *)
Theorem datetime_cascade_order
    (builtin_int : string -> result Z)
    (get_timestamp : pyobj -> Z -> string -> result string)
    (literal_eval : string -> result pyvalue)
    (field_name : string) (days : Z) :
  (forall s, bracketed s = false ->
     fst (jitter_timestamp builtin_int get_timestamp literal_eval
            (mk_field field_name "DT" (Single (PyStr s))) (IntArg days))
     = Returns (Single (to_pyobj
         (first_match get_timestamp
            ["%Y%m%d%H%M%S.%f"; "%Y%m%d%H%M%S.%f%z"; "%Y%m%d%H%M%S"]
            (PyStr s) days))))
  /\ jitter_timestamp int_ascii get_timestamp_model literal_eval
       (mk_field field_name "DT" (Single (PyStr "20200101120000"))) (IntArg 1)
     = (Returns (Single (PyStr "20200102120000")),
        [bot_warning "Failed with microseconds format for 20200101120000: time data '20200101120000' does not match format '%Y%m%d%H%M%S.%f'";
         bot_warning "Failed with timezone format for 20200101120000: time data '20200101120000' does not match format '%Y%m%d%H%M%S.%f%z'";
         returning_value (PyStr "20200102120000") field_name]).
Proof.
  split.
  - intros s Hs. rewrite jitter_timestamp_plain by exact Hs. cbn [fst].
    rewrite jitter_single_value, shift_outcome_first_match. reflexivity.
  - rewrite jitter_timestamp_plain by reflexivity. reflexivity.
Qed.

(** C5 (witness). A date-time with a fraction of a second matches the
    first pattern. *)
Lemma datetime_cascade_order_witness :
  fst (jitter_timestamp int_ascii get_timestamp_model literal_eval_list
         (mk_field "AcquisitionDateTime" "DT"
            (Single (PyStr "20200101120000.000000"))) (IntArg 1))
  = Returns (Single (PyStr "20200102120000.000000")).
Proof.
  exact (proj1 (datetime_cascade_order int_ascii get_timestamp_model literal_eval_list
                  "AcquisitionDateTime" 1)
           "20200101120000.000000" eq_refl).
Defined.

(** ** C6: a list written as a string *)

(** C6. A string in brackets that [literal_eval] reads as a list is from
    there on the list: the call does and logs what it does on the list
    itself, every element shifted and all joined by one backslash. So
    ["[20200101, 20200103]"] as a date, one day on, is
    ["20200102\20200104"]. *)
Theorem bracketed_list_is_collection
    (builtin_int : string -> result Z)
    (get_timestamp : pyobj -> Z -> string -> result string)
    (literal_eval : string -> result pyvalue)
    (field_name dcmvr : string) (days : Z) :
  (forall s items,
     bracketed s = true -> literal_eval s = Returns (PyList items) ->
     jitter_timestamp builtin_int get_timestamp literal_eval
       (mk_field field_name dcmvr (Single (PyStr s))) (IntArg days)
     = jitter_timestamp builtin_int get_timestamp literal_eval
         (mk_field field_name dcmvr (PyList items)) (IntArg days)
     /\ fst (jitter_timestamp builtin_int get_timestamp literal_eval
               (mk_field field_name dcmvr (Single (PyStr s))) (IntArg days))
        = Returns (Single (PyStr (String.concat "\"
            (List.map py_str
               (List.map (shifted_or_original get_timestamp dcmvr days)
                  items))))))
  /\ literal_eval_list "[20200101, 20200103]"
     = Returns (PyList [PyInt 20200101; PyInt 20200103])
  /\ jitter_timestamp int_ascii get_timestamp_model literal_eval_list
       (mk_field field_name "DA" (Single (PyStr "[20200101, 20200103]")))
       (IntArg 1)
     = (Returns (Single (PyStr "20200102\20200104")),
        [bot_info ("Processing 2 dates for multi-value field " +:+ field_name);
         bot_debug "Converting list to backslash-separated string: 20200102\20200104";
         bot_debug ("Completed jittering 2 dates for field " +:+ field_name);
         returning_value (PyStr "20200102\20200104") field_name]).
Proof.
  split; [|split; reflexivity].
  intros s items Hs Hlist.
  assert (jitter_timestamp builtin_int get_timestamp literal_eval
            (mk_field field_name dcmvr (Single (PyStr s))) (IntArg days)
          = jitter_timestamp builtin_int get_timestamp literal_eval
              (mk_field field_name dcmvr (PyList items)) (IntArg days)) as Heq.
  { unfold jitter_timestamp, mk_field. cbn [py_int value element name VR].
    unfold parse_bracketed. rewrite Hs, Hlist. reflexivity. }
  split; [exact Heq|]. rewrite Heq.
  apply (jitter_timestamp_joined builtin_int get_timestamp literal_eval _ _ _ false).
Qed.

(** C6 (witness). A list of two quoted dates, five days on. *)
Lemma bracketed_list_is_collection_witness :
  jitter_timestamp int_ascii get_timestamp_model literal_eval_list
    (mk_field "AcquisitionDate" "DA"
       (Single (PyStr "['20200101', '20200103']"))) (IntArg 5)
  = jitter_timestamp int_ascii get_timestamp_model literal_eval_list
      (mk_field "AcquisitionDate" "DA"
         (PyList [PyStr "20200101"; PyStr "20200103"])) (IntArg 5)
  /\ fst (jitter_timestamp int_ascii get_timestamp_model literal_eval_list
            (mk_field "AcquisitionDate" "DA"
               (Single (PyStr "['20200101', '20200103']"))) (IntArg 5))
     = Returns (Single (PyStr "20200106\20200108")).
Proof.
  exact (proj1 (bracketed_list_is_collection int_ascii get_timestamp_model
                  literal_eval_list "AcquisitionDate" "DA" 5)
           "['20200101', '20200103']" [PyStr "20200101"; PyStr "20200103"]
           eq_refl eq_refl).
Defined.

(** ** C7: any other value representation *)

Lemma generic_element_no_error
    (get_timestamp : pyobj -> Z -> string -> result string)
    (field_name dcmvr : string) (days : Z) (single_date : pyobj) :
  (dcmvr =? "DA")%string = false -> (dcmvr =? "DT")%string = false ->
  at_level ERROR
    (snd (jitter_single_date get_timestamp field_name dcmvr days single_date))
  = [].
Proof.
  intros Hda Hdt. rewrite jitter_single_date_log, !at_level_app.
  destruct (failed_warning_levels _
              (shift_by_vr_failed get_timestamp dcmvr single_date days))
    as (_ & -> & _).
  rewrite (shift_by_vr_generic get_timestamp dcmvr single_date days Hda Hdt).
  cbn [fst].
  destruct (truthy (shift_outcome get_timestamp dcmvr single_date days));
    reflexivity.
Qed.

(** C7. With a value representation that is neither DA nor DT the
    patterns tried are, in this order, the date, the date-time with whole
    seconds, with a fraction of a second, and with a fraction and an
    offset from UTC. The cascade stops at the first that matches: it
    sends one warning for each pattern that missed before it and lets no
    exception out. The call returns, on a single value and on a list,
    and sends no error record. *)
Theorem generic_cascade_order
    (builtin_int : string -> result Z)
    (get_timestamp : pyobj -> Z -> string -> result string)
    (literal_eval : string -> result pyvalue)
    (field_name dcmvr : string) (days : Z) :
  (dcmvr =? "DA")%string = false -> (dcmvr =? "DT")%string = false ->
  let generic :=
    ["%Y%m%d"; "%Y%m%d%H%M%S"; "%Y%m%d%H%M%S.%f"; "%Y%m%d%H%M%S.%f%z"] in
  (forall date,
     shift_by_vr get_timestamp dcmvr date days
     = (Returns (first_match get_timestamp generic date days),
        List.map
          (fun fe => bot_warning
             ("Failed to jitter " +:+ py_str date +:+ " with format "
              +:+ fst fe +:+ ": " +:+ exn_text (snd fe)))
          (failed_formats get_timestamp generic date days)))
  /\ (forall s, bracketed s = false ->
        let r := jitter_timestamp builtin_int get_timestamp literal_eval
                   (mk_field field_name dcmvr (Single (PyStr s)))
                   (IntArg days) in
        fst r = Returns (Single (to_pyobj
                  (first_match get_timestamp generic (PyStr s) days)))
        /\ at_level ERROR (snd r) = [])
  /\ (forall items,
        let r := jitter_timestamp builtin_int get_timestamp literal_eval
                   (mk_field field_name dcmvr (PyList items)) (IntArg days) in
        (exists joined, fst r = Returns (Single (PyStr joined)))
        /\ at_level ERROR (snd r) = []).
Proof.
  intros Hda Hdt generic. split; [|split].
  - intros date. rewrite (shift_by_vr_generic _ _ _ _ Hda Hdt).
    rewrite try_formats_log. reflexivity.
  - intros s Hs r. subst r. rewrite jitter_timestamp_plain by exact Hs.
    cbn [fst snd]. split.
    + rewrite jitter_single_value, shift_outcome_first_match.
      unfold candidates. rewrite Hda, Hdt. reflexivity.
    + rewrite jitter_single_log, !at_level_app.
      destruct (failed_warning_levels _
                  (shift_by_vr_failed get_timestamp dcmvr (PyStr s) days))
        as (_ & -> & _).
      rewrite (shift_by_vr_generic _ _ _ _ Hda Hdt). cbn [fst].
      destruct (truthy (shift_outcome get_timestamp dcmvr (PyStr s) days));
        reflexivity.
  - intros items r. subst r. split.
    + eexists.
      apply (jitter_timestamp_joined builtin_int get_timestamp literal_eval _ _ _ false).
    + rewrite (jitter_timestamp_multi builtin_int get_timestamp literal_eval _ _ _ false).
      cbn [fst snd]. unfold jitter_multi, bind. cbn [emit pure fst snd].
      rewrite jitter_each_log, !at_level_app. cbn [app].
      rewrite at_level_concat_nil; [reflexivity|].
      apply Forall_map, Forall_forall. intros d _.
      apply generic_element_no_error; assumption.
Qed.

(** C7 (witness). A date-time with whole seconds in a field of value
    representation LO: the date pattern misses, the second one matches. *)
Lemma generic_cascade_order_witness :
  shift_by_vr get_timestamp_model "LO" (PyStr "20200101120000") 1
  = (Returns (Some "20200102120000"),
     [bot_warning "Failed to jitter 20200101120000 with format %Y%m%d: time data '20200101120000' does not match format '%Y%m%d'"]).
Proof.
  exact (proj1 (generic_cascade_order int_ascii get_timestamp_model literal_eval_list
                  "Comment" "LO" 1 eq_refl eq_refl)
           (PyStr "20200101120000")).
Defined.

(** ** C8: the warning of a single value *)





(** ** C9: a string in brackets that is no list *)

(** When [literal_eval] raises ValueError or SyntaxError on a string in
    brackets, the call sends a warning and goes on with the string as a
    single value, brackets and all: it returns what the single-value
    branch makes of that string, and logs what that branch logs after
    the warning. *)
Lemma malformed_literal_stays_scalar
    (builtin_int : string -> result Z)
    (get_timestamp : pyobj -> Z -> string -> result string)
    (literal_eval : string -> result pyvalue)
    (field_name dcmvr : string) (days : Z) (s : string) (e : exn) :
  bracketed s = true ->
  literal_eval s = Raises e ->
  is_ValueError_or_SyntaxError e = true ->
  let r := jitter_single get_timestamp field_name dcmvr days (PyStr s) in
  jitter_timestamp builtin_int get_timestamp literal_eval
    (mk_field field_name dcmvr (Single (PyStr s))) (IntArg days)
  = (Returns (Single (fst r)),
     bot_warning ("Failed to parse string as list for field " +:+ field_name
                  +:+ ": " +:+ exn_text e +:+ ". Treating as single value.")
     :: snd r ++ [returning_value (fst r) field_name]).
Proof.
  intros Hs He Hcaught r. subst r.
  unfold jitter_timestamp, mk_field. cbn [py_int value element name VR].
  unfold parse_bracketed. rewrite Hs, He, Hcaught. reflexivity.
Qed.

(** C9 (the code on a string that fails to parse with another
    exception). On a string in brackets whose dict display has a list
    for key, [literal_eval] raises TypeError, which line 59 does not
    catch: no warning is sent, the string is not treated as a single
    value, and the call ends with that exception. *)
Lemma unhashable_literal_aborts :
  jitter_timestamp int_ascii get_timestamp_model literal_eval_unhashable
    (mk_field "StudyDate" "DA" (Single (PyStr "[{[]: 1}]"))) (IntArg 1)
  = (Raises (Exception TypeError "unhashable type: 'list'"), []).
Proof. reflexivity. Qed.

(** ** C3: what reaches the caller *)

Section Caller.

Variable builtin_int : string -> result Z.
Variable get_timestamp : pyobj -> Z -> string -> result string.
Variable literal_eval : string -> result pyvalue.

(** The call on a value that is not None, by the outcome of the
    reading of a bracketed string. *)
Lemma jitter_timestamp_parsed field_name dcmvr days v :
  v <> Single PyNone ->
  jitter_timestamp builtin_int get_timestamp literal_eval (mk_field field_name dcmvr v)
    (IntArg days)
  = match fst (parse_bracketed literal_eval field_name v) with
    | Raises e =>
        (Raises e, snd (parse_bracketed literal_eval field_name v))
    | Returns original =>
        let r := jitter_value get_timestamp field_name dcmvr days original in
        (Returns (Single (fst r)),
         snd (parse_bracketed literal_eval field_name v)
         ++ snd r ++ [returning_value (fst r) field_name])
    end.
Proof.
  intros Hv. unfold jitter_timestamp, mk_field.
  cbn [py_int value element name VR].
  destruct v as [[|s|n|cls text]|items|items]; try congruence;
    unfold bind at 1;
    match goal with
    | |- context [fst (parse_bracketed ?le ?n ?v)] =>
        destruct (fst (parse_bracketed le n v))
    end; cbn [fst snd]; try rewrite app_nil_r; reflexivity.
Qed.

End Caller.

Lemma pyvalue_is_none (v : pyvalue) : v = Single PyNone \/ v <> Single PyNone.
Proof.
  destruct v as [[|s|n|cls text]|items|items];
    (left; reflexivity) || (right; discriminate).
Qed.

(** C3 (the code on a string that [literal_eval] refuses with
    TypeError). A string in brackets whose set display has a list for
    element: [literal_eval] raises TypeError, which the
    [except (ValueError, SyntaxError)] of line 59 does not catch, and
    the call ends with that exception at an integer offset, where every
    call of [get_timestamp] sits under [except Exception]. *)
Lemma type_error_reaches_caller :
  fst (jitter_timestamp int_ascii get_timestamp_model literal_eval_unhashable
         (mk_field "AcquisitionDate" "DA" (Single (PyStr "[{[]}]")))
         (IntArg 1))
  = Raises (Exception TypeError "unhashable type: 'list'").
Proof. reflexivity. Qed.

(** * Further properties of the two functions *)

(** ** The wrapper *)

(** X1. The wrapper resolves the offset and then is [jitter_timestamp]
    at that offset: the days plus 365 for each year, where [int()]
    returns on the options. Where [int()] raises on an option, the
    wrapper raises that exception before the field is looked at: nothing
    is logged. *)
Theorem wrapper_resolves_then_jitters
    (builtin_int : string -> result Z)
    (get_timestamp : pyobj -> Z -> string -> result string)
    (literal_eval : string -> result pyvalue)
    (field : Field) (opts : gmap string string) :
  (forall d y,
     days_option builtin_int opts = Returns d ->
     years_option builtin_int opts = Returns y ->
     jitter_timestamp_func builtin_int get_timestamp literal_eval field opts
     = jitter_timestamp builtin_int get_timestamp literal_eval field
         (IntArg (d + y)))
  /\ (forall e,
        days_option builtin_int opts = Raises e
        \/ (exists d, days_option builtin_int opts = Returns d)
           /\ years_option builtin_int opts = Raises e ->
        jitter_timestamp_func builtin_int get_timestamp literal_eval field opts
        = (Raises e, [])).
Proof.
  unfold jitter_timestamp_func. rewrite jitter_offset_cases. split.
  - intros d y -> ->. reflexivity.
  - intros e [->|[[d ->] ->]]; reflexivity.
Qed.

(** X1 (witness). Three days and one year back on a date. *)
Lemma wrapper_resolves_then_jitters_witness :
  jitter_timestamp_func int_ascii get_timestamp_model literal_eval_list
    (mk_field "StudyDate" "DA" (Single (PyStr "20200101")))
    {[ "days" := "3"; "years" := "-1" ]}
  = jitter_timestamp int_ascii get_timestamp_model literal_eval_list
      (mk_field "StudyDate" "DA" (Single (PyStr "20200101")))
      (IntArg (3 + -365)).
Proof.
  exact (proj1 (wrapper_resolves_then_jitters int_ascii get_timestamp_model
                  literal_eval_list
                  (mk_field "StudyDate" "DA" (Single (PyStr "20200101")))
                  {[ "days" := "3"; "years" := "-1" ]})
           3 (-365) eq_refl eq_refl).
Defined.

(** X2. With a [years] option and no [days] option the default of one
    day is still added: the shift is 365 days for each year and one
    more. *)
Theorem years_alone_add_the_default_day
    (builtin_int : string -> result Z)
    (get_timestamp : pyobj -> Z -> string -> result string)
    (literal_eval : string -> result pyvalue)
    (field : Field) (opts : gmap string string) (y : string) (years : Z) :
  opts !! "days" = None ->
  opts !! "years" = Some y ->
  builtin_int y = Returns years ->
  jitter_timestamp_func builtin_int get_timestamp literal_eval field opts
  = jitter_timestamp builtin_int get_timestamp literal_eval field
      (IntArg (years * 365 + 1)).
Proof.
  intros Hd Hy Hint. unfold jitter_timestamp_func, jitter_offset.
  rewrite Hd, Hy. cbn [py_int]. rewrite Hint. reflexivity.
Qed.

(** X2 (witness). One year on is 366 days on: the first of January 2021
    becomes the second of January 2022. *)
Lemma years_alone_add_the_default_day_witness :
  jitter_timestamp_func int_ascii get_timestamp_model literal_eval_list
    (mk_field "StudyDate" "DA" (Single (PyStr "20210101")))
    {[ "years" := "1" ]}
  = jitter_timestamp int_ascii get_timestamp_model literal_eval_list
      (mk_field "StudyDate" "DA" (Single (PyStr "20210101")))
      (IntArg (1 * 365 + 1)).
Proof.
  exact (years_alone_add_the_default_day int_ascii get_timestamp_model literal_eval_list
           (mk_field "StudyDate" "DA" (Single (PyStr "20210101")))
           {[ "years" := "1" ]} "1" 1 eq_refl eq_refl eq_refl).
Defined.

(** ** The log of a single value *)

(** X3. A single DA value that the date pattern does not match is
    reported as an unexpected error: the log is the error record with the
    text of the exception, the warning that names the field, and the
    closing debug record, and the result is None. No other pattern is
    tried. *)
Theorem date_miss_is_logged_as_error
    (builtin_int : string -> result Z)
    (get_timestamp : pyobj -> Z -> string -> result string)
    (literal_eval : string -> result pyvalue)
    (field_name : string) (days : Z) (s : string) (e : exn) :
  bracketed s = false ->
  get_timestamp (PyStr s) days "%Y%m%d" = Raises e ->
  jitter_timestamp builtin_int get_timestamp literal_eval
    (mk_field field_name "DA" (Single (PyStr s))) (IntArg days)
  = (Returns (Single PyNone),
     [bot_error ("Unexpected error jittering single value " +:+ s
                 +:+ " in field " +:+ field_name +:+ ": " +:+ exn_text e);
      bot_warning ("JITTER not supported for field " +:+ field_name
                   +:+ " with value '" +:+ s +:+ "' and VR=DA");
      returning_value PyNone field_name]).
Proof.
  intros Hs He. rewrite jitter_timestamp_plain by exact Hs.
  unfold jitter_single, shift_by_vr, bind. cbn [String.eqb Ascii.eqb Bool.eqb].
  change fmt_date with "%Y%m%d". rewrite He. reflexivity.
Qed.

(** X3 (witness). A date-time in a DA field. *)
Lemma date_miss_is_logged_as_error_witness :
  jitter_timestamp int_ascii get_timestamp_model literal_eval_list
    (mk_field "StudyDate" "DA" (Single (PyStr "20200101120000"))) (IntArg 1)
  = (Returns (Single PyNone),
     [bot_error ("Unexpected error jittering single value " +:+ "20200101120000"
                 +:+ " in field " +:+ "StudyDate" +:+ ": "
                 +:+ exn_text (mismatch (PyStr "20200101120000") "%Y%m%d"));
      bot_warning ("JITTER not supported for field " +:+ "StudyDate"
                   +:+ " with value '" +:+ "20200101120000" +:+ "' and VR=DA");
      returning_value PyNone "StudyDate"]).
Proof.
  exact (date_miss_is_logged_as_error int_ascii get_timestamp_model literal_eval_list
           "StudyDate" 1 "20200101120000"
           (mismatch (PyStr "20200101120000") "%Y%m%d") eq_refl eq_refl).
Defined.

(** X4. A single DT value that none of the three patterns matches: the
    first two misses are warnings, the third is caught by the outer
    handler and logged as an unexpected error, then comes the warning
    that names the field; the result is None. *)
Theorem datetime_misses_are_logged
    (builtin_int : string -> result Z)
    (get_timestamp : pyobj -> Z -> string -> result string)
    (literal_eval : string -> result pyvalue)
    (field_name : string) (days : Z) (s : string) (e1 e2 e3 : exn) :
  bracketed s = false ->
  get_timestamp (PyStr s) days "%Y%m%d%H%M%S.%f" = Raises e1 ->
  get_timestamp (PyStr s) days "%Y%m%d%H%M%S.%f%z" = Raises e2 ->
  get_timestamp (PyStr s) days "%Y%m%d%H%M%S" = Raises e3 ->
  jitter_timestamp builtin_int get_timestamp literal_eval
    (mk_field field_name "DT" (Single (PyStr s))) (IntArg days)
  = (Returns (Single PyNone),
     [bot_warning ("Failed with microseconds format for " +:+ s +:+ ": "
                   +:+ exn_text e1);
      bot_warning ("Failed with timezone format for " +:+ s +:+ ": "
                   +:+ exn_text e2);
      bot_error ("Unexpected error jittering single value " +:+ s
                 +:+ " in field " +:+ field_name +:+ ": " +:+ exn_text e3);
      bot_warning ("JITTER not supported for field " +:+ field_name
                   +:+ " with value '" +:+ s +:+ "' and VR=DT");
      returning_value PyNone field_name]).
Proof.
  intros Hs H1 H2 H3. rewrite jitter_timestamp_plain by exact Hs.
  unfold jitter_single, shift_by_vr, bind. cbn [String.eqb Ascii.eqb Bool.eqb].
  change fmt_micro with "%Y%m%d%H%M%S.%f".
  change fmt_micro_tz with "%Y%m%d%H%M%S.%f%z".
  change fmt_seconds with "%Y%m%d%H%M%S".
  rewrite H1. cbn [fst snd emit]. rewrite H2. cbn [fst snd emit].
  rewrite H3. reflexivity.
Qed.

(** X4 (witness). A date with dashes in a DT field. *)
Lemma datetime_misses_are_logged_witness :
  fst (jitter_timestamp int_ascii get_timestamp_model literal_eval_list
         (mk_field "AcquisitionDateTime" "DT" (Single (PyStr "2020-01-01")))
         (IntArg 1))
  = Returns (Single PyNone)
  /\ length (snd (jitter_timestamp int_ascii get_timestamp_model literal_eval_list
         (mk_field "AcquisitionDateTime" "DT" (Single (PyStr "2020-01-01")))
         (IntArg 1))) = 5%nat.
Proof.
  rewrite (datetime_misses_are_logged int_ascii get_timestamp_model literal_eval_list
             "AcquisitionDateTime" 1 "2020-01-01"
             (mismatch (PyStr "2020-01-01") "%Y%m%d%H%M%S.%f")
             (mismatch (PyStr "2020-01-01") "%Y%m%d%H%M%S.%f%z")
             (mismatch (PyStr "2020-01-01") "%Y%m%d%H%M%S")
             eq_refl eq_refl eq_refl eq_refl).
  split; reflexivity.
Defined.

(** X5. When the first pattern of the value representation gives a text
    that is not empty, the call returns that text and the log is the
    closing debug record alone: no warning, no error, and no other
    pattern is tried. *)
Theorem first_pattern_success_is_silent
    (builtin_int : string -> result Z)
    (get_timestamp : pyobj -> Z -> string -> result string)
    (literal_eval : string -> result pyvalue)
    (field_name dcmvr : string) (days : Z) (s : string)
    (c : ascii) (shifted : string) :
  bracketed s = false ->
  get_timestamp (PyStr s) days (List.hd fmt_date (candidates dcmvr))
  = Returns (String c shifted) ->
  jitter_timestamp builtin_int get_timestamp literal_eval
    (mk_field field_name dcmvr (Single (PyStr s))) (IntArg days)
  = (Returns (Single (PyStr (String c shifted))),
     [returning_value (PyStr (String c shifted)) field_name]).
Proof.
  intros Hs Hfirst. rewrite jitter_timestamp_plain by exact Hs.
  unfold jitter_single, shift_by_vr, bind. unfold candidates in Hfirst.
  destruct (dcmvr =? "DA")%string.
  - cbn [List.hd] in Hfirst. rewrite Hfirst. reflexivity.
  - destruct (dcmvr =? "DT")%string.
    + cbn [List.hd] in Hfirst. rewrite Hfirst. reflexivity.
    + cbn [List.hd] in Hfirst. cbn [try_formats]. rewrite Hfirst. reflexivity.
Qed.

(** X5 (witness). A date in a DA field, ten days back. *)
Lemma first_pattern_success_is_silent_witness :
  jitter_timestamp int_ascii get_timestamp_model literal_eval_list
    (mk_field "StudyDate" "DA" (Single (PyStr "20200101"))) (IntArg (-10))
  = (Returns (Single (PyStr "20191222")),
     [returning_value (PyStr "20191222") "StudyDate"]).
Proof.
  exact (first_pattern_success_is_silent int_ascii get_timestamp_model literal_eval_list
           "StudyDate" "DA" (-10) "20200101" "2" "0191222" eq_refl eq_refl).
Defined.

(** ** Every call *)

Lemma parse_bracketed_raise_log
    (literal_eval : string -> result pyvalue) (field_name : string)
    (v : pyvalue) (e : exn) :
  fst (parse_bracketed literal_eval field_name v) = Raises e ->
  snd (parse_bracketed literal_eval field_name v) = [].
Proof.
  unfold parse_bracketed.
  destruct v as [[|s|n|cls text]|items|items]; try discriminate.
  destruct (bracketed s); [|discriminate].
  destruct (literal_eval s) as [parsed|e']; [discriminate|].
  destruct (is_ValueError_or_SyntaxError e'); [discriminate|reflexivity].
Qed.

(** X6. Whatever the field and the offset argument, a call that returns
    returns one object, and the last record of its log is the closing
    debug record for that object and the field; a call that raises has
    logged nothing. *)
Theorem log_ends_with_returned_value
    (builtin_int : string -> result Z)
    (get_timestamp : pyobj -> Z -> string -> result string)
    (literal_eval : string -> result pyvalue)
    (field_name dcmvr : string) (v : pyvalue) (days : offset_arg) :
  let r := jitter_timestamp builtin_int get_timestamp literal_eval
             (mk_field field_name dcmvr v) days in
  match fst r with
  | Returns (Single new_value) =>
      exists before, snd r = before ++ [returning_value new_value field_name]
  | Returns _ => False
  | Raises _ => snd r = []
  end.
Proof.
  cbn zeta.
  assert (forall n,
    match fst (jitter_timestamp builtin_int get_timestamp literal_eval
                 (mk_field field_name dcmvr v) (IntArg n)) with
    | Returns (Single new_value) =>
        exists before,
          snd (jitter_timestamp builtin_int get_timestamp literal_eval
                 (mk_field field_name dcmvr v) (IntArg n))
          = before ++ [returning_value new_value field_name]
    | Returns _ => False
    | Raises _ =>
        snd (jitter_timestamp builtin_int get_timestamp literal_eval
               (mk_field field_name dcmvr v) (IntArg n)) = []
    end) as Hint.
  { intros n. destruct (pyvalue_is_none v) as [->|Hv].
    - cbn. eexists [_]. reflexivity.
    - rewrite jitter_timestamp_parsed by exact Hv.
      destruct (fst (parse_bracketed literal_eval field_name v)) as [o|e] eqn:Hp.
      + cbn [fst snd]. eexists. rewrite app_assoc. reflexivity.
      + cbn [fst snd]. exact (parse_bracketed_raise_log _ _ _ _ Hp). }
  destruct days as [n|s]; [apply Hint|].
  unfold jitter_timestamp. cbn [py_int].
  destruct (builtin_int s) as [n|e]; [|reflexivity].
  exact (Hint n).
Qed.

(** X7. [literal_eval] is consulted for a string in brackets and for
    nothing else: on any other value the call does not depend on it. *)
Theorem only_bracketed_strings_are_parsed
    (builtin_int : string -> result Z)
    (get_timestamp : pyobj -> Z -> string -> result string)
    (literal_eval literal_eval' : string -> result pyvalue)
    (field_name dcmvr : string) (v : pyvalue) (days : offset_arg) :
  (forall s, v = Single (PyStr s) -> bracketed s = false) ->
  jitter_timestamp builtin_int get_timestamp literal_eval
    (mk_field field_name dcmvr v) days
  = jitter_timestamp builtin_int get_timestamp literal_eval'
      (mk_field field_name dcmvr v) days.
Proof.
  intros Hv. unfold jitter_timestamp, mk_field.
  cbn [value element name VR]. destruct (py_int builtin_int days) as [n|e]; [|reflexivity].
  destruct v as [[|s|k|cls text]|items|items]; try reflexivity.
  unfold parse_bracketed. rewrite (Hv s eq_refl). reflexivity.
Qed.

(** X7 (witness). A string with the closing bracket alone. *)
Lemma only_bracketed_strings_are_parsed_witness :
  jitter_timestamp int_ascii get_timestamp_model literal_eval_list
    (mk_field "StudyDate" "DA" (Single (PyStr "20200101]"))) (IntArg 1)
  = jitter_timestamp int_ascii get_timestamp_model literal_eval_unhashable
      (mk_field "StudyDate" "DA" (Single (PyStr "20200101]"))) (IntArg 1).
Proof.
  apply (only_bracketed_strings_are_parsed int_ascii get_timestamp_model
           literal_eval_list literal_eval_unhashable).
  intros s Hs. injection Hs as <-. reflexivity.
Defined.

(** X8. A string in brackets that [literal_eval] reads as something that
    is no list (a tuple, say) is replaced by that object: the
    single-value branch runs on the object, not on the string, and no
    warning about the parsing is sent. *)
Theorem non_list_literal_replaces_string
    (builtin_int : string -> result Z)
    (get_timestamp : pyobj -> Z -> string -> result string)
    (literal_eval : string -> result pyvalue)
    (field_name dcmvr : string) (days : Z) (s : string) (o : pyobj) :
  bracketed s = true ->
  literal_eval s = Returns (Single o) ->
  let r := jitter_single get_timestamp field_name dcmvr days o in
  jitter_timestamp builtin_int get_timestamp literal_eval
    (mk_field field_name dcmvr (Single (PyStr s))) (IntArg days)
  = (Returns (Single (fst r)), snd r ++ [returning_value (fst r) field_name]).
Proof.
  intros Hs Ho r. subst r. rewrite jitter_timestamp_parsed by discriminate.
  unfold parse_bracketed. rewrite Hs, Ho. reflexivity.
Qed.

(** X8 (witness). Two lists with a comma between are a tuple: the
    warning names the tuple, not the string. *)
Lemma non_list_literal_replaces_string_witness :
  jitter_timestamp int_ascii get_timestamp_model literal_eval_tuple
    (mk_field "StudyDate" "DA" (Single (PyStr "[1], [2]"))) (IntArg 1)
  = (Returns (Single PyNone),
     [bot_error "Unexpected error jittering single value ([1], [2]) in field StudyDate: time data '([1], [2])' does not match format '%Y%m%d'";
      bot_warning "JITTER not supported for field StudyDate with value '([1], [2])' and VR=DA";
      returning_value PyNone "StudyDate"]).
Proof.
  exact (non_list_literal_replaces_string int_ascii get_timestamp_model
           literal_eval_tuple "StudyDate" "DA" 1 "[1], [2]"
           (PyOther "tuple" "([1], [2])") eq_refl eq_refl).
Defined.

(** ** The log of a multi-value field *)

Lemma not_supported_warnings_app (l1 l2 : list log_record) :
  not_supported_warnings (l1 ++ l2)
  = not_supported_warnings l1 ++ not_supported_warnings l2.
Proof. apply List.filter_app. Qed.

Lemma not_supported_warnings_failed (l : list log_record) :
  Forall is_failed_warning l -> not_supported_warnings l = [].
Proof.
  induction 1 as [|r l [m ->] _ IH]; [reflexivity|].
  unfold not_supported_warnings in *. cbn [List.filter]. rewrite IH.
  reflexivity.
Qed.

Lemma not_supported_warnings_info (m : string) :
  not_supported_warnings [bot_info m] = [].
Proof. reflexivity. Qed.

Lemma not_supported_warnings_debug (m : string) :
  not_supported_warnings [bot_debug m] = [].
Proof. reflexivity. Qed.

Section MultiLog.

Variable builtin_int : string -> result Z.
Variable get_timestamp : pyobj -> Z -> string -> result string.
Variable literal_eval : string -> result pyvalue.

Lemma element_not_supported field_name dcmvr days single_date :
  not_supported_warnings
    (snd (jitter_single_date get_timestamp field_name dcmvr days single_date))
  = if truthy (first_match get_timestamp (candidates dcmvr) single_date days)
    then []
    else [value_not_supported single_date dcmvr field_name].
Proof.
  rewrite jitter_single_date_log, shift_outcome_first_match.
  rewrite !not_supported_warnings_app.
  rewrite (not_supported_warnings_failed _
             (shift_by_vr_failed get_timestamp dcmvr single_date days)).
  destruct (fst (shift_by_vr get_timestamp dcmvr single_date days));
    destruct (truthy (first_match get_timestamp (candidates dcmvr)
                        single_date days)); reflexivity.
Qed.

Lemma each_not_supported field_name dcmvr days items jittered_values :
  not_supported_warnings
    (snd (jitter_each get_timestamp field_name dcmvr days items
            jittered_values))
  = List.map (fun d => value_not_supported d dcmvr field_name)
      (List.filter
         (fun d => negb (truthy (first_match get_timestamp (candidates dcmvr)
                                   d days)))
         items).
Proof.
  rewrite jitter_each_log.
  induction items as [|d rest IH]; [reflexivity|].
  cbn [List.map List.concat List.filter].
  rewrite not_supported_warnings_app, IH, element_not_supported.
  destruct (truthy (first_match get_timestamp (candidates dcmvr) d days));
    reflexivity.
Qed.

Lemma element_no_info field_name dcmvr days single_date :
  at_level INFO
    (snd (jitter_single_date get_timestamp field_name dcmvr days single_date))
  = [].
Proof.
  rewrite jitter_single_date_log, !at_level_app.
  destruct (failed_warning_levels _
              (shift_by_vr_failed get_timestamp dcmvr single_date days))
    as (_ & _ & ->).
  destruct (fst (shift_by_vr get_timestamp dcmvr single_date days));
    destruct (truthy (shift_outcome get_timestamp dcmvr single_date days));
    reflexivity.
Qed.

End MultiLog.

(** X9. On a list or a MultiValue, the warnings that are not the miss of
    a pattern are exactly the not-supported warnings of the elements
    whose shift gave nothing, one for each such element, in the order of
    the elements. *)
Theorem one_warning_per_failed_element
    (builtin_int : string -> result Z)
    (get_timestamp : pyobj -> Z -> string -> result string)
    (literal_eval : string -> result pyvalue)
    (field_name dcmvr : string) (days : Z) (is_MultiValue : bool)
    (items : list pyobj) :
  not_supported_warnings
    (snd (jitter_timestamp builtin_int get_timestamp literal_eval
            (mk_field field_name dcmvr
               (if is_MultiValue then MultiValue items else PyList items))
            (IntArg days)))
  = List.map
      (fun single_date =>
         bot_warning ("JITTER not supported for value '" +:+ py_str single_date
                      +:+ "' with VR=" +:+ dcmvr +:+ " in field "
                      +:+ field_name))
      (List.filter
         (fun single_date =>
            negb (truthy (first_match get_timestamp (candidates dcmvr)
                            single_date days)))
         items).
Proof.
  rewrite jitter_timestamp_multi. cbn [fst snd].
  unfold jitter_multi, bind. cbn [emit pure fst snd].
  rewrite !not_supported_warnings_app, each_not_supported.
  rewrite not_supported_warnings_info, !not_supported_warnings_debug.
  change (not_supported_warnings []) with (@nil log_record).
  cbn [app]. rewrite !app_nil_r. reflexivity.
Qed.

(** X10. On a list or a MultiValue of any length there is one info
    record, which gives the number of elements, and the completion
    record gives the same number: no element is dropped or added on the
    way. *)
Theorem element_count_is_kept
    (builtin_int : string -> result Z)
    (get_timestamp : pyobj -> Z -> string -> result string)
    (literal_eval : string -> result pyvalue)
    (field_name dcmvr : string) (days : Z) (is_MultiValue : bool)
    (items : list pyobj) :
  let log :=
    snd (jitter_timestamp builtin_int get_timestamp literal_eval
           (mk_field field_name dcmvr
              (if is_MultiValue then MultiValue items else PyList items))
           (IntArg days)) in
  at_level INFO log
  = [bot_info ("Processing " +:+ str_of_Z (Z.of_nat (length items))
               +:+ " dates for multi-value field " +:+ field_name)]
  /\ In (bot_debug ("Completed jittering "
                    +:+ str_of_Z (Z.of_nat (length items))
                    +:+ " dates for field " +:+ field_name)) log.
Proof.
  cbn zeta. rewrite jitter_timestamp_multi. cbn [fst snd].
  unfold jitter_multi, bind. cbn [emit pure fst snd]. split.
  - rewrite !at_level_app, jitter_each_log.
    rewrite at_level_concat_nil; [reflexivity|].
    apply Forall_map, Forall_forall. intros d _. apply element_no_info.
  - rewrite jitter_each_values, app_nil_l, List.length_map.
    apply in_or_app. left. apply in_or_app. right.
    apply in_or_app. right. apply in_or_app. right. left. reflexivity.
Qed.

(** ** A list of one element and the single value *)

(** X11. A list with one string for element and that string as a single
    value give the same result whenever the shift gives a text that is
    not empty. (When it gives nothing they differ: the list keeps the
    string, the single value becomes None.) *)
Theorem singleton_list_agrees_on_success
    (builtin_int : string -> result Z)
    (get_timestamp : pyobj -> Z -> string -> result string)
    (literal_eval : string -> result pyvalue)
    (field_name dcmvr : string) (days : Z) (s : string) :
  bracketed s = false ->
  truthy (first_match get_timestamp (candidates dcmvr) (PyStr s) days) = true ->
  fst (jitter_timestamp builtin_int get_timestamp literal_eval
         (mk_field field_name dcmvr (PyList [PyStr s])) (IntArg days))
  = fst (jitter_timestamp builtin_int get_timestamp literal_eval
           (mk_field field_name dcmvr (Single (PyStr s))) (IntArg days)).
Proof.
  intros Hs Htruthy.
  rewrite (jitter_timestamp_joined builtin_int get_timestamp literal_eval _ _ _ false).
  rewrite jitter_timestamp_plain by exact Hs. cbn [fst].
  rewrite jitter_single_value. unfold shifted_or_original.
  cbn [List.map String.concat].
  rewrite shift_outcome_first_match, Htruthy.
  destruct (first_match get_timestamp (candidates dcmvr) (PyStr s) days);
    [reflexivity|discriminate].
Qed.

(** X11 (witness). One date, as a list and as a single value. *)
Lemma singleton_list_agrees_on_success_witness :
  fst (jitter_timestamp int_ascii get_timestamp_model literal_eval_list
         (mk_field "StudyDate" "DA" (PyList [PyStr "20200101"])) (IntArg 10))
  = fst (jitter_timestamp int_ascii get_timestamp_model literal_eval_list
           (mk_field "StudyDate" "DA" (Single (PyStr "20200101")))
           (IntArg 10)).
Proof.
  exact (singleton_list_agrees_on_success int_ascii get_timestamp_model
           literal_eval_list "StudyDate" "DA" 10 "20200101" eq_refl eq_refl).
Defined.
